(** * The project source list of PiTiVi: its declared interface

    The repository file is [src/pitivi-projectsourcelist.h], a C header.
    It holds an include guard, six type macros, four typedefs, two struct
    definitions and six function prototypes, and no function body.

    The development has three parts:
    - [CDecl]: C declarations as data (types, prototypes, structs);
    - [Cpp]: the header as the list of its preprocessor lines, and the
      preprocessor that reads it (conditional groups, macro table, macro
      expansion of a replacement list);
    - [Model]: the behaviour of the methods, whose bodies live in a .c file
      that is not part of the sources at hand. *)

From stdpp Require Import gmap strings list.
From Stdlib Require Import NArith.

Local Open Scope string_scope.

(** ** C declarations *)

Module CDecl.

(** The types the header writes: [void], a type name ([guint], [GObject],
    [PitiviProjectSourceList], ...) and pointers to them. *)
Inductive ctype : Type :=
| TVoid : ctype
| TName : string -> ctype
| TPtr : ctype -> ctype.

#[global] Instance ctype_eq_dec : EqDecision ctype.
Proof. solve_decision. Defined.

(** A parameter of a prototype or a member of a struct: type and name. *)
Record cvar : Type := CVar { var_type : ctype; var_name : string }.

#[global] Instance cvar_eq_dec : EqDecision cvar.
Proof. solve_decision. Defined.

(** A function prototype.  The parameter list [(void)] is the empty
    list. *)
Record prototype : Type := Proto {
  proto_ret : ctype;
  proto_name : string;
  proto_params : list cvar
}.

#[global] Instance prototype_eq_dec : EqDecision prototype.
Proof. solve_decision. Defined.

(** What a header can declare at file scope. *)
Inductive decl : Type :=
| DTypedefStruct (tag alias : string)
    (* typedef struct tag alias; *)
| DStruct (tag : string) (members : list cvar)
    (* struct tag { members }; *)
| DProto (p : prototype).

#[global] Instance decl_eq_dec : EqDecision decl.
Proof. solve_decision. Defined.

Definition prototypes (ds : list decl) : list prototype :=
  omap (fun d => match d with DProto p => Some p | _ => None end) ds.

(** The struct tag a typedef name stands for. *)
Definition typedefs (ds : list decl) : gmap string string :=
  foldl (fun m d => match d with
                    | DTypedefStruct tag alias => <[alias := tag]> m
                    | _ => m
                    end) ∅ ds.

(** The member list of a struct tag; a tag with no entry is an
    incomplete type. *)
Definition struct_defs (ds : list decl) : gmap string (list cvar) :=
  foldl (fun m d => match d with
                    | DStruct tag ms => <[tag := ms]> m
                    | _ => m
                    end) ∅ ds.

(** The members visible for a typedef name: [None] when the name is not
    a typedef of a struct, or when the struct is incomplete. *)
Definition visible_members (ds : list decl) (alias : string)
  : option (list cvar) :=
  tag ← typedefs ds !! alias; struct_defs ds !! tag.

Definition is_incomplete (ds : list decl) (alias : string) : bool :=
  match typedefs ds !! alias with
  | Some tag => match struct_defs ds !! tag with
                | Some _ => false
                | None => true
                end
  | None => false
  end.

Definition find_proto (ds : list decl) (name : string) : option prototype :=
  head (filter (fun p => proto_name p = name) (prototypes ds)).

End CDecl.

Import CDecl.

(** ** The header and the preprocessor *)

Module Cpp.

(** A replacement list is a list of preprocessing tokens. *)
Definition token := string.

(** A macro: [None] for an object-like macro, [Some ps] for a
    function-like one with parameters [ps]. *)
Record macro : Type := Macro {
  macro_params : option (list string);
  macro_body : list token
}.

(** The lines of a header, comments removed. *)
Inductive pp_line : Type :=
| PPIfndef (m : string)
| PPDefine (m : string) (params : option (list string)) (body : list token)
| PPEndif
| PPDecl (d : decl).

(** The handle type of the object. *)
Definition handle : ctype := TPtr (TName "PitiviProjectSourceList").

Definition pitivi_projectsourcelist_get_type_proto : prototype :=
  Proto (TName "GType") "pitivi_projectsourcelist_get_type" [].

Definition pitivi_projectsourcelist_new_proto : prototype :=
  Proto handle "pitivi_projectsourcelist_new" [].

Definition pitivi_projectsourcelist_add_file_to_bin_proto : prototype :=
  Proto (TName "gboolean") "pitivi_projectsourcelist_add_file_to_bin"
        [CVar handle "self"; CVar (TName "guint") "bin_pos";
         CVar (TPtr (TName "gchar")) "source"].

Definition pitivi_projectsourcelist_new_bin_proto : prototype :=
  Proto TVoid "pitivi_projectsourcelist_new_bin"
        [CVar handle "self"; CVar (TPtr (TName "gchar")) "bin_name"].

Definition pitivi_projectsourcelist_get_file_info_proto : prototype :=
  Proto (TPtr (TName "gchar")) "pitivi_projectsourcelist_get_file_info"
        [CVar handle "self"; CVar (TName "guint") "bin_pos";
         CVar (TName "guint") "next_file"].

Definition pitivi_projectsourcelist_showfile_proto : prototype :=
  Proto TVoid "pitivi_projectsourcelist_showfile"
        [CVar handle "self"; CVar (TName "guint") "bin_pos"].

(** The five cast and check macros use one of these shapes:
    [(CHECK ((arg), PITIVI_PROJECTSOURCELIST_TYPE, Type))] and
    [(CHECK ((arg), PITIVI_PROJECTSOURCELIST_TYPE))]. *)
Definition check3 (chk arg ty : token) : list token :=
  ["("; chk; "("; "("; arg; ")"; ",";
   "PITIVI_PROJECTSOURCELIST_TYPE"; ","; ty; ")"; ")"].

Definition check2 (chk arg : token) : list token :=
  ["("; chk; "("; "("; arg; ")"; ",";
   "PITIVI_PROJECTSOURCELIST_TYPE"; ")"; ")"].

(** The body of the guarded group, in the order of the file. *)
Definition header_body : list pp_line :=
  [ PPDefine "PITIVI_PROJECTSOURCELIST_TYPE" None
      ["("; "pitivi_projectsourcelist_get_type"; "("; ")"; ")"];
    PPDefine "PITIVI_PROJECTSOURCELIST" (Some ["obj"])
      (check3 "G_TYPE_CHECK_INSTANCE_CAST" "obj" "PitiviProjectSourceList");
    PPDefine "PITIVI_PROJECTSOURCELIST_CLASS" (Some ["klass"])
      (check3 "G_TYPE_CHECK_CLASS_CAST" "klass"
              "PitiviProjectSourceListClass");
    PPDefine "PITIVI_IS_PROJECTSOURCELIST" (Some ["obj"])
      (check2 "G_TYPE_CHECK_TYPE" "obj");
    PPDefine "PITIVI_IS_PROJECTSOURCELIST_CLASS" (Some ["klass"])
      (check2 "G_TYPE_CHECK_CLASS_TYPE" "klass");
    PPDefine "PITIVI_PROJECTSOURCELIST_GET_CLASS" (Some ["obj"])
      (check3 "G_TYPE_INSTANCE_GET_CLASS" "obj"
              "PitiviProjectSourceListClass");
    PPDecl (DTypedefStruct "_PitiviProjectSourceList"
                           "PitiviProjectSourceList");
    PPDecl (DTypedefStruct "_PitiviProjectSourceListClass"
                           "PitiviProjectSourceListClass");
    PPDecl (DTypedefStruct "_PitiviProjectSourceListPrivate"
                           "PitiviProjectSourceListPrivate");
    PPDecl (DTypedefStruct "_PitiviSourceBin" "PitiviSourceBin");
    PPDecl (DStruct "_PitiviProjectSourceList"
              [CVar (TName "GObject") "parent";
               CVar (TPtr (TName "PitiviProjectSourceListPrivate"))
                    "private"]);
    PPDecl (DStruct "_PitiviProjectSourceListClass"
              [CVar (TName "GObjectClass") "parent"]);
    PPDecl (DProto pitivi_projectsourcelist_get_type_proto);
    PPDecl (DProto pitivi_projectsourcelist_new_proto);
    PPDecl (DProto pitivi_projectsourcelist_add_file_to_bin_proto);
    PPDecl (DProto pitivi_projectsourcelist_new_bin_proto);
    PPDecl (DProto pitivi_projectsourcelist_get_file_info_proto);
    PPDecl (DProto pitivi_projectsourcelist_showfile_proto) ].

Definition PITIVI_PROJECTSOURCELIST_H : string :=
  "PITIVI_PROJECTSOURCELIST_H".

(** The whole file: [#ifndef G], [#define G], the body, [#endif]. *)
Definition header : list pp_line :=
  PPIfndef PITIVI_PROJECTSOURCELIST_H
  :: PPDefine PITIVI_PROJECTSOURCELIST_H None []
  :: header_body ++ [PPEndif].

(** The state of the preprocessor inside one translation unit: the macro
    table and the declarations passed on to the compiler so far. *)
Record cpp_state : Type := CppState {
  macros : gmap string macro;
  output : list decl
}.

Definition cpp_init : cpp_state := CppState ∅ [].

Definition is_defined (m : string) (st : cpp_state) : bool :=
  match macros st !! m with Some _ => true | None => false end.

Definition define (m : string) (mc : macro) (st : cpp_state) : cpp_state :=
  CppState (<[m := mc]> (macros st)) (output st).

(** A declaration is passed on as it stands.  That is what the
    preprocessor does when no token of the declaration is the name of a
    macro; [decl_tokens] below lists these tokens, and the properties that
    read the output from a state other than [cpp_init] assume it of them. *)
Definition emit (d : decl) (st : cpp_state) : cpp_state :=
  CppState (macros st) (output st ++ [d]).

(** The stack of open conditional groups; [true] for a group that is
    being read.  Lines are processed only when every open group is. *)
Definition active (conds : list bool) : bool := forallb id conds.

Definition cpp_line (l : pp_line) (conds : list bool) (st : cpp_state)
  : list bool * cpp_state :=
  match l with
  | PPIfndef m => (negb (is_defined m st) :: conds, st)
  | PPEndif => (tail conds, st)
  | PPDefine m ps b =>
      (conds, if active conds then define m (Macro ps b) st else st)
  | PPDecl d => (conds, if active conds then emit d st else st)
  end.

Fixpoint cpp_lines (ls : list pp_line) (conds : list bool) (st : cpp_state)
  : list bool * cpp_state :=
  match ls with
  | [] => (conds, st)
  | l :: ls' => let '(conds', st') := cpp_line l conds st in
                cpp_lines ls' conds' st'
  end.

(** [#include] of a file [f] at file scope. *)
Definition include (f : list pp_line) (st : cpp_state) : cpp_state :=
  snd (cpp_lines f [] st).

(** The declarations a translation unit sees after including the header
    once. *)
Definition declarations : list decl := output (include header cpp_init).

Definition macro_table : gmap string macro :=
  macros (include header cpp_init).

(** Macro replacement of the object-like macros in a replacement list,
    with rescanning; [fuel] bounds the nesting of replacements.  A
    function-like macro name is left in place with its arguments (the
    ones this header calls are defined outside it). *)
Fixpoint expand (fuel : nat) (tbl : gmap string macro) (ts : list token)
  : list token :=
  match fuel with
  | O => ts
  | S fuel' =>
      flat_map (fun t => match tbl !! t with
                         | Some (Macro None b) => expand fuel' tbl b
                         | _ => [t]
                         end) ts
  end.

(** Does a token list hold the call [f ()]? *)
Fixpoint has_call0 (f : token) (ts : list token) : bool :=
  match ts with
  | t :: ts' =>
      match ts' with
      | "(" :: ")" :: _ => bool_decide (t = f) || has_call0 f ts'
      | _ => has_call0 f ts'
      end
  | [] => false
  end.

(** The names of the macros a file defines. *)
Definition defined_by (f : list pp_line) : list string :=
  omap (fun l => match l with PPDefine m _ _ => Some m | _ => None end) f.

(** Does macro [m], replaced at a point of use, call [f ()]?  The size of
    the table bounds the nesting of replacements. *)
Definition macro_calls0 (tbl : gmap string macro) (m : string) (f : token)
  : bool :=
  match tbl !! m with
  | Some mc => has_call0 f (expand (size tbl) tbl (macro_body mc))
  | None => false
  end.

(** Lines that open or close a conditional group. *)
Definition is_cond (l : pp_line) : bool :=
  match l with
  | PPIfndef _ | PPEndif => true
  | PPDefine _ _ _ | PPDecl _ => false
  end.

(** A run of lines with no conditional directive. *)
Definition flat (ls : list pp_line) : bool :=
  forallb (fun l => negb (is_cond l)) ls.

(** The shape of a file under an include guard [g]. *)
Definition guarded (g : string) (body : list pp_line) : list pp_line :=
  PPIfndef g :: PPDefine g None [] :: body ++ [PPEndif].

(** GLib's names for the types the prototypes use. *)
Definition gboolean : ctype := TName "gboolean".
Definition guint : ctype := TName "guint".
Definition gchar_ptr : ctype := TPtr (TName "gchar").
Definition GType : ctype := TName "GType".

(** A prototype is an operation on a source list when the handle type
    occurs in its signature, as its result or as a parameter. *)
Definition mentions_handle (p : prototype) : bool :=
  bool_decide (proto_ret p = handle)
  || existsb (fun v => bool_decide (var_type v = handle)) (proto_params p).

Definition source_list_operations : list prototype :=
  filter (fun p => mentions_handle p = true) (prototypes declarations).

(** The type of the first parameter, if there is one. *)
Definition first_param_type (p : prototype) : option ctype :=
  var_type <$> head (proto_params p).

(** *** Scoping of the declarations *)

(** The type name a type is built on; [void] has none. *)
Fixpoint base_name (t : ctype) : option string :=
  match t with
  | TVoid => None
  | TName n => Some n
  | TPtr t' => base_name t'
  end.

(** The types a declaration writes: the members of a struct, the result
    and the parameters of a prototype.  A typedef of a struct tag writes
    none. *)
Definition used_types (d : decl) : list ctype :=
  match d with
  | DTypedefStruct _ _ => []
  | DStruct _ ms => map var_type ms
  | DProto p => proto_ret p :: map var_type (proto_params p)
  end.

Definition name_known (known : list string) (t : ctype) : bool :=
  match base_name t with
  | Some n => bool_decide (n ∈ known)
  | None => true
  end.

(** C reads declarations in order: a type name can be used only after it
    was declared.  [known] holds the type names declared so far; a typedef
    adds its alias. *)
Fixpoint well_scoped (known : list string) (ds : list decl) : bool :=
  match ds with
  | [] => true
  | d :: ds' =>
      forallb (name_known known) (used_types d)
      && well_scoped (match d with
                      | DTypedefStruct _ alias => alias :: known
                      | DStruct _ _ | DProto _ => known
                      end) ds'
  end.

(** The type names the header uses and does not declare; they are GLib's. *)
Definition glib_types : list string :=
  ["GObject"; "GObjectClass"; "GType"; "gboolean"; "guint"; "gchar"].

(** The declarations that write the type name [n]. *)
Definition users_of (n : string) (ds : list decl) : list decl :=
  filter (fun d => existsb (fun t => bool_decide (base_name t = Some n))
                           (used_types d) = true) ds.

(** *** The shape of the macros *)

Definition count_token (x : token) (ts : list token) : nat :=
  length (filter (fun t => t = x) ts).

(** Inside one pair of parentheses: the first token opens a parenthesis
    that only the last token closes. *)
Fixpoint closes_at_end (depth : nat) (ts : list token) : bool :=
  match ts with
  | [] => false
  | t :: ts' =>
      if bool_decide (t = "(") then closes_at_end (S depth) ts'
      else if bool_decide (t = ")") then
             match depth with
             | O => false
             | S O => match ts' with [] => true | _ :: _ => false end
             | S depth' => closes_at_end depth' ts'
             end
           else closes_at_end depth ts'
  end.

Definition enclosed (ts : list token) : bool :=
  match ts with
  | "(" :: ts' => closes_at_end 1 ts'
  | _ => false
  end.

(** Every occurrence of [x] stands between ["("] and [")"]; [prev] is the
    token before the list. *)
Fixpoint wrapped_from (prev : token) (x : token) (ts : list token) : bool :=
  match ts with
  | [] => true
  | t :: ts' =>
      (if bool_decide (t = x)
       then bool_decide (prev = "(") && bool_decide (head ts' = Some ")")
       else true)
      && wrapped_from t x ts'
  end.

(** A macro is safe to use in any expression when its replacement list is
    empty or inside one pair of parentheses, and each parameter occurs
    once, in parentheses of its own. *)
Definition hygienic (mc : macro) : bool :=
  match macro_body mc with
  | [] => true
  | _ :: _ => enclosed (macro_body mc)
  end
  && match macro_params mc with
     | None => true
     | Some ps =>
         forallb (fun x => bool_decide (count_token x (macro_body mc) = 1)
                           && wrapped_from "" x (macro_body mc)) ps
     end.

Definition typedef_names (ds : list decl) : list string :=
  omap (fun d => match d with
                 | DTypedefStruct _ alias => Some alias
                 | DStruct _ _ | DProto _ => None
                 end) ds.

(** What the header itself accounts for in a replacement list:
    punctuation, a parameter of the macro, a macro of the table, a
    function or a typedef name of [ds]. *)
Definition declared_token (ds : list decl) (tbl : gmap string macro)
    (ps : list string) (t : token) : bool :=
  bool_decide (t ∈ ["("; ")"; ","])
  || bool_decide (t ∈ ps)
  || bool_decide (is_Some (tbl !! t))
  || bool_decide (t ∈ map proto_name (prototypes ds))
  || bool_decide (t ∈ typedef_names ds).

(** For each [#define] of a file, in order: the tokens of its replacement
    list that the file does not account for. *)
Definition undeclared_by_macro (f : list pp_line) (ds : list decl)
    (tbl : gmap string macro) : list (string * list token) :=
  omap (fun l => match l with
                 | PPDefine m ps b =>
                     Some (m, filter (fun t => declared_token ds tbl
                                                 (default [] ps) t = false) b)
                 | PPIfndef _ | PPEndif | PPDecl _ => None
                 end) f.

(** *** The tokens of the declarations *)

(** The identifiers and keywords of a type; [*] is punctuation. *)
Fixpoint type_tokens (t : ctype) : list token :=
  match t with
  | TVoid => ["void"]
  | TName n => [n]
  | TPtr t' => type_tokens t'
  end.

Definition cvar_tokens (v : cvar) : list token :=
  (type_tokens (var_type v) ++ [var_name v])%list.

(** The identifiers and keywords a declaration is written with: the tokens
    a macro could replace. *)
Definition decl_tokens (d : decl) : list token :=
  match d with
  | DTypedefStruct tag alias => ["typedef"; "struct"; tag; alias]
  | DStruct tag ms => "struct" :: tag :: flat_map cvar_tokens ms
  | DProto p =>
      (type_tokens (proto_ret p) ++ [proto_name p]
       ++ match proto_params p with
          | [] => ["void"]
          | _ :: _ => flat_map cvar_tokens (proto_params p)
          end)%list
  end.

(** *** The parameters of the prototypes *)

(** The parameters of type [t], each with the function it belongs to. *)
Definition params_of_type (t : ctype) (ps : list prototype)
  : list (string * string) :=
  flat_map (fun p => omap (fun v => if bool_decide (var_type v = t)
                                    then Some (proto_name p, var_name v)
                                    else None) (proto_params p)) ps.

(** *** Use of a function-like macro *)

(** The replacement list with each parameter replaced by its argument. *)
Definition substitute (ps : list string) (args : list (list token))
    (body : list token) : list token :=
  flat_map (fun t => match list_find (fun x => x = t) ps with
                     | Some (i, _) => default [t] (args !! i)
                     | None => [t]
                     end) body.

(** [m (args)]: the arguments are macro-replaced, put in place of the
    parameters, and the result is scanned again.  [None] when [m] is not a
    function-like macro or the number of arguments is not the number of
    parameters. *)
Definition invoke (tbl : gmap string macro) (m : string)
    (args : list (list token)) : option (list token) :=
  match tbl !! m with
  | Some (Macro (Some ps) body) =>
      if bool_decide (length ps = length args)
      then Some (expand (size tbl) tbl
                   (substitute ps (map (expand (size tbl) tbl) args) body))
      else None
  | _ => None
  end.

(** The declarations among the lines of a file. *)
Definition decls_of (f : list pp_line) : list decl :=
  omap (fun l => match l with PPDecl d => Some d | _ => None end) f.

End Cpp.

Import Cpp.

(** ** The behaviour of the methods *)

Module Model.

(** Modelled from the spec: the layout of a source is missing (the header
    gives none).  The spec's data model has a source as "a filesystem path
    registered into a bin, with associated (unshown) metadata"; the
    metadata is kept as the text that describes the file. *)
Record PitiviSource : Type := Source {
  source_path : string;
  source_info : string
}.

(** Modelled from the spec: the body of [struct _PitiviSourceBin] is
    missing (the header only names the type).  The spec has a bin as a
    "named grouping of source files", reached by position. *)
Record PitiviSourceBin : Type := SourceBin {
  bin_name : string;
  bin_sources : list PitiviSource
}.

(** Modelled from the spec: the body of
    [struct _PitiviProjectSourceListPrivate] is missing.  The spec has
    the source list as "an opaque container, presumably owning zero or
    more bins". *)
Record PitiviProjectSourceListPrivate : Type := Private {
  bins : list PitiviSourceBin
}.

(** The program state the methods run in: the source lists that were
    constructed, by address, and the text printed so far. *)
Record world : Type := World {
  objects : gmap positive PitiviProjectSourceListPrivate;
  printed : list string
}.

(** Methods are state transformers with a result. *)
Definition M (A : Type) : Type := world -> A * world.

Definition ret {A : Type} (a : A) : M A := fun w => (a, w).

Definition bind {A B : Type} (m : M A) (k : A -> M B) : M B :=
  fun w => let '(a, w') := m w in k a w'.

Notation "'do' x <- m ; k" := (bind m (fun x => k))
  (at level 10, x name, m at level 100, k at level 200).
Notation "'run' m ; k" := (bind m (fun _ => k))
  (at level 10, m at level 100, k at level 200).

Definition g_print (s : string) : M unit :=
  fun w => (tt, World (objects w) (printed w ++ [s])).

Definition store (self : positive) (p : PitiviProjectSourceListPrivate)
  : M unit :=
  fun w => (tt, World (<[self := p]> (objects w)) (printed w)).

Definition alloc (p : PitiviProjectSourceListPrivate) : M positive :=
  fun w => let self := fresh (dom (objects w)) in
           (self, World (<[self := p]> (objects w)) (printed w)).

Definition load (self : positive)
  : M (option PitiviProjectSourceListPrivate) :=
  fun w => (objects w !! self, w).

Fixpoint for_each {A : Type} (f : A -> M unit) (l : list A) : M unit :=
  match l with
  | [] => ret tt
  | a :: l' => run f a; for_each f l'
  end.

(** A [guint] argument used as a position. *)
Definition pos (n : N) : nat := N.to_nat n.

(** Modelled from the spec: the body of [pitivi_projectsourcelist_new] is
    missing.  Spec: "Construct a new, empty source list." *)
Definition pitivi_projectsourcelist_new : M positive :=
  alloc (Private []).

(** Modelled from the spec: the body of
    [pitivi_projectsourcelist_new_bin] is missing.  Spec: "Create a new
    named bin."  The bin starts with no source; a handle that was never
    constructed is left alone. *)
Definition pitivi_projectsourcelist_new_bin (self : positive)
    (bin_name : string) : M unit :=
  do o <- load self;
  match o with
  | Some p => store self (Private (bins p ++ [SourceBin bin_name []]))
  | None => ret tt
  end.


(** Modelled from the spec: the body of
    [pitivi_projectsourcelist_showfile] is missing.  Spec: "Print debug
    information for a bin's contents." *)
Definition pitivi_projectsourcelist_showfile (self : positive)
    (bin_pos : N) : M unit :=
  do o <- load self;
  match o ≫= (fun p => bins p !! pos bin_pos) with
  | Some b => for_each (fun s => g_print (source_path s)) (bin_sources b)
  | None => ret tt
  end.

(** A state to run the methods on: one source list, at address 1, with
    the bins "rushes" (two sources) and "music" (none). *)
Definition sample_list : PitiviProjectSourceListPrivate :=
  Private [ SourceBin "rushes"
              [ Source "/video/take1.avi" "take1.avi, 12 s";
                Source "/video/take2.avi" "take2.avi, 7 s" ];
            SourceBin "music" [] ].

Definition sample_world : world :=
  World {[ 1%positive := sample_list ]} ["ready"].

End Model.

Import Model.

(** * Properties *)

(** ** The preprocessor on a guarded file *)

Section Guard.

Variable g : string.
Variable body : list pp_line.
Hypothesis body_flat : flat body = true.

Lemma cpp_lines_app (l1 l2 : list pp_line) conds st :
  cpp_lines (l1 ++ l2) conds st
  = cpp_lines l2 (cpp_lines l1 conds st).1 (cpp_lines l1 conds st).2.
Proof.
  revert conds st. induction l1 as [|l l1 IH]; intros conds st; simpl.
  - reflexivity.
  - destruct (cpp_line l conds st) as [conds' st']. apply IH.
Qed.

(** Inside a group that is not read, lines without conditionals change
    nothing. *)
Lemma cpp_lines_skipped (ls : list pp_line) conds st :
  flat ls = true -> active conds = false ->
  cpp_lines ls conds st = (conds, st).
Proof.
  revert st. induction ls as [|l ls IH]; intros st Hflat Hskip; simpl.
  - reflexivity.
  - simpl in Hflat. apply andb_prop in Hflat as [Hl Hls].
    destruct l; simpl in Hl; try discriminate; simpl;
      rewrite Hskip; apply IH; assumption.
Qed.

(** Lines without conditionals leave the stack alone and never remove a
    macro. *)
Lemma cpp_lines_flat (ls : list pp_line) conds st m :
  flat ls = true ->
  (cpp_lines ls conds st).1 = conds
  /\ (is_defined m st = true ->
      is_defined m (cpp_lines ls conds st).2 = true).
Proof.
  revert st. induction ls as [|l ls IH]; intros st Hflat; simpl.
  - split; [reflexivity | trivial].
  - simpl in Hflat. apply andb_prop in Hflat as [Hl Hls].
    destruct l as [m'|m' ps b| |d]; simpl in Hl; try discriminate; simpl.
    + destruct (IH (if active conds then define m' (Macro ps b) st else st)
                   Hls) as [Hc Hd].
      split; [exact Hc|]. intros Hm. apply Hd.
      destruct (active conds); [|exact Hm].
      unfold is_defined, define in *; simpl.
      destruct (decide (m' = m)) as [->|Hne].
      * rewrite lookup_insert_eq. reflexivity.
      * rewrite lookup_insert_ne by exact Hne. exact Hm.
    + destruct (IH (if active conds then emit d st else st) Hls)
        as [Hc Hd].
      split; [exact Hc|]. intros Hm. apply Hd.
      destruct (active conds); exact Hm.
Qed.

(** A second inclusion finds the guard defined and skips the file. *)
Lemma include_guarded_defined st :
  is_defined g st = true -> include (guarded g body) st = st.
Proof.
  intros Hg. unfold include, guarded. simpl. rewrite Hg. simpl.
  rewrite cpp_lines_app.
  rewrite (cpp_lines_skipped body [false] st body_flat eq_refl).
  reflexivity.
Qed.

(** After an inclusion the guard is defined. *)
Lemma include_guarded_defines st :
  is_defined g (include (guarded g body) st) = true.
Proof.
  destruct (is_defined g st) eqn:Hg.
  - rewrite include_guarded_defined; assumption.
  - unfold include, guarded. simpl. rewrite Hg. simpl.
    rewrite cpp_lines_app.
    destruct (cpp_lines_flat body [true] (define g (Macro None []) st) g
                             body_flat) as [Hc Hd].
    rewrite Hc. simpl. apply Hd.
    unfold is_defined, define; simpl. rewrite lookup_insert_eq.
    reflexivity.
Qed.

Lemma include_guarded_twice st :
  include (guarded g body) (include (guarded g body) st)
  = include (guarded g body) st.
Proof. apply include_guarded_defined, include_guarded_defines. Qed.

Lemma include_guarded_iter (n : nat) st :
  Nat.iter (S n) (include (guarded g body)) st
  = include (guarded g body) st.
Proof.
  induction n as [|n IH].
  - reflexivity.
  - change (Nat.iter (S (S n)) (include (guarded g body)) st)
      with (include (guarded g body)
              (Nat.iter (S n) (include (guarded g body)) st)).
    rewrite IH. apply include_guarded_twice.
Qed.

End Guard.

Lemma header_is_guarded : header = guarded PITIVI_PROJECTSOURCELIST_H header_body.
Proof. reflexivity. Qed.

Lemma header_body_flat : flat header_body = true.
Proof. reflexivity. Qed.

(** ** The declared interface *)

Example declarations_count : length declarations = 12.
Proof. vm_compute. reflexivity. Qed.

Lemma prototypes_of_header :
  prototypes declarations
  = [ pitivi_projectsourcelist_get_type_proto;
      pitivi_projectsourcelist_new_proto;
      pitivi_projectsourcelist_add_file_to_bin_proto;
      pitivi_projectsourcelist_new_bin_proto;
      pitivi_projectsourcelist_get_file_info_proto;
      pitivi_projectsourcelist_showfile_proto ].
Proof. vm_compute. reflexivity. Qed.

Lemma operations_of_header :
  source_list_operations
  = [ pitivi_projectsourcelist_new_proto;
      pitivi_projectsourcelist_add_file_to_bin_proto;
      pitivi_projectsourcelist_new_bin_proto;
      pitivi_projectsourcelist_get_file_info_proto;
      pitivi_projectsourcelist_showfile_proto ].
Proof. vm_compute. reflexivity. Qed.

(** C1.  [pitivi_projectsourcelist_add_file_to_bin] takes the handle, a
    [guint] bin position and a [gchar *] path and returns a [gboolean]; of
    all the prototypes of the header it is the only one that returns a
    [gboolean]; and each of the other operations on a source list (the
    prototypes with the handle in their signature) returns the handle, a
    [gchar *] or [void]. *)
Theorem add_file_to_bin_only_boolean :
  find_proto declarations "pitivi_projectsourcelist_add_file_to_bin"
  = Some (Proto gboolean "pitivi_projectsourcelist_add_file_to_bin"
                [CVar handle "self"; CVar guint "bin_pos";
                 CVar gchar_ptr "source"])
  /\ Forall (fun p => proto_ret p = gboolean
                      <-> proto_name p
                          = "pitivi_projectsourcelist_add_file_to_bin")
            (prototypes declarations)
  /\ Forall (fun p => proto_name p
                      = "pitivi_projectsourcelist_add_file_to_bin"
                      \/ proto_ret p = handle
                      \/ proto_ret p = gchar_ptr
                      \/ proto_ret p = TVoid)
            source_list_operations
  /\ map proto_name source_list_operations
     = [ "pitivi_projectsourcelist_new";
         "pitivi_projectsourcelist_add_file_to_bin";
         "pitivi_projectsourcelist_new_bin";
         "pitivi_projectsourcelist_get_file_info";
         "pitivi_projectsourcelist_showfile" ].
Proof.
  split; [vm_compute; reflexivity|].
  split.
  - rewrite prototypes_of_header.
    repeat apply Forall_cons_2; try apply Forall_nil_2; simpl;
      split; intros H; try reflexivity; discriminate H.
  - split; [|rewrite operations_of_header; reflexivity].
    rewrite operations_of_header.
    repeat apply Forall_cons_2; try apply Forall_nil_2; simpl.
    + right; left; reflexivity.
    + left; reflexivity.
    + right; right; right; reflexivity.
    + right; right; left; reflexivity.
    + right; right; right; reflexivity.
Qed.

(** C2, as the claim states it, fails: the header declares a prototype that
    is none of the five, so the prototypes are not five. *)
Lemma five_prototypes_counterexample :
  length (prototypes declarations) <> 5
  /\ (pitivi_projectsourcelist_get_type_proto ∈ prototypes declarations)
  /\ (pitivi_projectsourcelist_get_type_proto ∉ source_list_operations).
Proof.
  rewrite prototypes_of_header, operations_of_header.
  split; [simpl; lia|].
  split; [apply list_elem_of_here|].
  intros H. apply list_elem_of_In in H. simpl in H.
  repeat (destruct H as [H|H]; [discriminate H|]). exact H.
Qed.

(** C2, amended.  The header declares exactly six prototypes, all of
    different names: the type registration function
    [pitivi_projectsourcelist_get_type], and the five operations on a
    source list, which create a source list, add a file to a bin, create a
    new named bin, query file info and debug-print the contents of a bin. *)
Theorem six_prototypes :
  length (prototypes declarations) = 6
  /\ NoDup (map proto_name (prototypes declarations))
  /\ prototypes declarations
     = pitivi_projectsourcelist_get_type_proto :: source_list_operations
  /\ map (fun p => (proto_name p, proto_ret p, map var_type (proto_params p)))
         source_list_operations
     = [ ("pitivi_projectsourcelist_new", handle, []);
         ("pitivi_projectsourcelist_add_file_to_bin", gboolean,
          [handle; guint; gchar_ptr]);
         ("pitivi_projectsourcelist_new_bin", TVoid, [handle; gchar_ptr]);
         ("pitivi_projectsourcelist_get_file_info", gchar_ptr,
          [handle; guint; guint]);
         ("pitivi_projectsourcelist_showfile", TVoid, [handle; guint]) ].
Proof.
  rewrite operations_of_header, prototypes_of_header.
  split; [reflexivity|]. split; [|split; reflexivity].
  apply (bool_decide_unpack _). vm_compute. reflexivity.
Qed.

(** C7.  The instance struct has two members: the [GObject] parent first,
    then one pointer to [PitiviProjectSourceListPrivate], a type the header
    names by typedef and never completes; the class struct has the
    [GObjectClass] parent first. *)
Theorem struct_layout :
  visible_members declarations "PitiviProjectSourceList"
  = Some [ CVar (TName "GObject") "parent";
           CVar (TPtr (TName "PitiviProjectSourceListPrivate")) "private" ]
  /\ typedefs declarations !! "PitiviProjectSourceListPrivate"
     = Some "_PitiviProjectSourceListPrivate"
  /\ is_incomplete declarations "PitiviProjectSourceListPrivate" = true
  /\ visible_members declarations "PitiviProjectSourceListPrivate" = None
  /\ (visible_members declarations "PitiviProjectSourceListClass"
      ≫= head) = Some (CVar (TName "GObjectClass") "parent").
Proof. repeat split; vm_compute; reflexivity. Qed.

(** C8.  The header declares a sixth prototype, [GType
    pitivi_projectsourcelist_get_type (void)], which is not one of the five
    operations on a source list; [PITIVI_PROJECTSOURCELIST_TYPE] is
    replaced by a call of it, and each of the six type macros of the
    header, replaced at a point of use, holds that call. *)
Theorem get_type_declared_and_used :
  find_proto declarations "pitivi_projectsourcelist_get_type"
  = Some (Proto GType "pitivi_projectsourcelist_get_type" [])
  /\ length (prototypes declarations) = 6
  /\ ("pitivi_projectsourcelist_get_type"
      ∉ map proto_name source_list_operations)
  /\ macro_table !! "PITIVI_PROJECTSOURCELIST_TYPE"
     = Some (Macro None
               ["("; "pitivi_projectsourcelist_get_type"; "("; ")"; ")"])
  /\ defined_by header_body
     = [ "PITIVI_PROJECTSOURCELIST_TYPE"; "PITIVI_PROJECTSOURCELIST";
         "PITIVI_PROJECTSOURCELIST_CLASS"; "PITIVI_IS_PROJECTSOURCELIST";
         "PITIVI_IS_PROJECTSOURCELIST_CLASS";
         "PITIVI_PROJECTSOURCELIST_GET_CLASS" ]
  /\ Forall (fun m => macro_calls0 macro_table m
                        "pitivi_projectsourcelist_get_type" = true)
            (defined_by header_body).
Proof.
  split; [vm_compute; reflexivity|].
  split; [vm_compute; reflexivity|].
  split.
  { rewrite operations_of_header. intros H. apply list_elem_of_In in H.
    simpl in H. repeat (destruct H as [H|H]; [discriminate H|]). exact H. }
  split; [vm_compute; reflexivity|].
  split; [reflexivity|].
  apply Forall_forall. intros m Hm. apply list_elem_of_In in Hm.
  simpl in Hm.
  repeat (destruct Hm as [<-|Hm]; [vm_compute; reflexivity|]).
  destruct Hm.
Qed.

(** C9.  The header is one group under the include guard
    [PITIVI_PROJECTSOURCELIST_H], and including it [n + 1] times in a
    translation unit, from any state of the preprocessor, leaves the same
    macro table and the same declarations as including it once. *)
Theorem include_header_idempotent (n : nat) (st : cpp_state) :
  header = guarded PITIVI_PROJECTSOURCELIST_H header_body
  /\ Nat.iter (S n) (include header) st = include header st
  /\ output (Nat.iter (S n) (include header) cpp_init) = declarations.
Proof.
  split; [reflexivity|].
  rewrite header_is_guarded.
  split.
  - apply include_guarded_iter, header_body_flat.
  - unfold declarations. rewrite header_is_guarded.
    rewrite (include_guarded_iter _ _ header_body_flat). reflexivity.
Qed.

(** C10.  Every prototype of the header other than
    [pitivi_projectsourcelist_new] and [pitivi_projectsourcelist_get_type]
    has the handle as the type of its first parameter. *)
Theorem handle_first_parameter (p : prototype) :
  p ∈ prototypes declarations ->
  proto_name p <> "pitivi_projectsourcelist_new" ->
  proto_name p <> "pitivi_projectsourcelist_get_type" ->
  first_param_type p = Some handle.
Proof.
  rewrite prototypes_of_header. intros Hp Hnew Htype.
  apply list_elem_of_In in Hp. simpl in Hp.
  destruct Hp as [<-|[<-|[<-|[<-|[<-|[<-|[]]]]]]];
    try reflexivity; simpl in *; congruence.
Qed.

Lemma handle_first_parameter_witness :
  first_param_type pitivi_projectsourcelist_add_file_to_bin_proto
  = Some handle.
Proof.
  apply (handle_first_parameter
           pitivi_projectsourcelist_add_file_to_bin_proto).
  - rewrite prototypes_of_header. do 2 apply list_elem_of_further.
    apply list_elem_of_here.
  - simpl. discriminate.
  - simpl. discriminate.
Defined.

(** ** The methods *)

Lemma for_each_g_print {A : Type} (f : A -> string) (l : list A) (w : world) :
  for_each (fun a => g_print (f a)) l w
  = (tt, World (objects w) (printed w ++ map f l)).
Proof.
  revert w. induction l as [|a l IH]; intros w; simpl.
  - unfold ret. rewrite app_nil_r. destruct w; reflexivity.
  - unfold bind, g_print at 1. rewrite IH. simpl.
    rewrite <- app_assoc. reflexivity.
Qed.

(** C3.  [pitivi_projectsourcelist_new] is declared with no parameter and
    the handle as its result; run in any state, it returns an address that
    held no source list before and holds one with zero bins after, and it
    changes nothing else. *)
Theorem new_constructs_empty_list (w : world) :
  find_proto declarations "pitivi_projectsourcelist_new"
  = Some (Proto handle "pitivi_projectsourcelist_new" [])
  /\ objects w !! (pitivi_projectsourcelist_new w).1 = None
  /\ (exists p, objects (pitivi_projectsourcelist_new w).2
                !! (pitivi_projectsourcelist_new w).1 = Some p
                /\ length (bins p) = 0)
  /\ delete (pitivi_projectsourcelist_new w).1
            (objects (pitivi_projectsourcelist_new w).2) = objects w
  /\ printed (pitivi_projectsourcelist_new w).2 = printed w.
Proof.
  split; [vm_compute; reflexivity|].
  unfold pitivi_projectsourcelist_new, alloc. simpl.
  assert (Hfresh : objects w !! fresh (dom (objects w)) = None)
    by apply not_elem_of_dom, is_fresh.
  split; [exact Hfresh|].
  split.
  - exists (Private []). rewrite lookup_insert_eq. split; reflexivity.
  - split; [|reflexivity]. apply delete_insert_id, Hfresh.
Qed.




(** C5.  [pitivi_projectsourcelist_new_bin] is declared with the handle and
    a [gchar *] name and the result [void]; on a constructed source list
    it adds exactly one bin, which has that name and no source, after the
    bins that were there, which it keeps as they were; it changes no other
    source list and nothing printed. *)
Theorem new_bin_creates_named_bin
    (w : world) (self : positive) (p : PitiviProjectSourceListPrivate)
    (name : string) :
  objects w !! self = Some p ->
  find_proto declarations "pitivi_projectsourcelist_new_bin"
  = Some (Proto TVoid "pitivi_projectsourcelist_new_bin"
                [CVar handle "self"; CVar gchar_ptr "bin_name"])
  /\ (exists p',
        objects (pitivi_projectsourcelist_new_bin self name w).2 !! self
        = Some p'
        /\ bins p' = (bins p ++ [SourceBin name []])%list
        /\ length (bins p') = S (length (bins p))
        /\ (SourceBin name [] ∈ bins p')
        /\ bins p ⊆ bins p')
  /\ delete self (objects (pitivi_projectsourcelist_new_bin self name w).2)
     = delete self (objects w)
  /\ printed (pitivi_projectsourcelist_new_bin self name w).2 = printed w.
Proof.
  intros Hp.
  split; [vm_compute; reflexivity|].
  unfold pitivi_projectsourcelist_new_bin, bind, load, store.
  rewrite Hp. simpl.
  split.
  - exists (Private (bins p ++ [SourceBin name []])).
    rewrite lookup_insert_eq. simpl.
    split; [reflexivity|].
    split; [reflexivity|].
    split; [rewrite length_app; simpl; lia|].
    split.
    + apply elem_of_app. right. apply list_elem_of_here.
    + intros x Hx. apply elem_of_app. left. exact Hx.
  - split; [apply delete_insert_eq | reflexivity].
Qed.

Lemma new_bin_creates_named_bin_witness :
  exists p',
    objects (pitivi_projectsourcelist_new_bin 1 "music" sample_world).2
    !! 1%positive = Some p'
    /\ bins p' = (bins sample_list ++ [SourceBin "music" []])%list.
Proof.
  destruct (new_bin_creates_named_bin sample_world 1 sample_list "music")
    as (_ & (p' & Hp' & Hbins & _) & _).
  - vm_compute. reflexivity.
  - exists p'. split; [exact Hp' | exact Hbins].
Defined.

(** C6.  [pitivi_projectsourcelist_showfile] is declared with the handle
    and a [guint] bin position and the result [void]; for every state,
    handle and position it leaves every source list as it was; what it
    prints, after the text printed before, is the contents of the bin: one
    line for each source of the bin at that position, in order, and
    nothing when there is no such bin. *)
Theorem showfile_only_prints (w : world) (self : positive) (bin_pos : N) :
  find_proto declarations "pitivi_projectsourcelist_showfile"
  = Some (Proto TVoid "pitivi_projectsourcelist_showfile"
                [CVar handle "self"; CVar guint "bin_pos"])
  /\ objects (pitivi_projectsourcelist_showfile self bin_pos w).2 = objects w
  /\ (forall (p : PitiviProjectSourceListPrivate) (b : PitiviSourceBin),
        objects w !! self = Some p ->
        bins p !! pos bin_pos = Some b ->
        printed (pitivi_projectsourcelist_showfile self bin_pos w).2
        = (printed w ++ map source_path (bin_sources b))%list)
  /\ (objects w !! self = None ->
      printed (pitivi_projectsourcelist_showfile self bin_pos w).2
      = printed w)
  /\ (forall p : PitiviProjectSourceListPrivate,
        objects w !! self = Some p ->
        bins p !! pos bin_pos = None ->
        printed (pitivi_projectsourcelist_showfile self bin_pos w).2
        = printed w).
Proof.
  split; [vm_compute; reflexivity|].
  unfold pitivi_projectsourcelist_showfile, bind, load.
  split.
  { destruct (objects w !! self ≫= (fun p => bins p !! pos bin_pos))
      as [b|].
    - rewrite for_each_g_print. reflexivity.
    - reflexivity. }
  split; [|split].
  - intros p b Hp Hb. rewrite Hp. simpl. rewrite Hb.
    rewrite for_each_g_print. reflexivity.
  - intros Hp. rewrite Hp. reflexivity.
  - intros p Hp Hb. rewrite Hp. simpl. rewrite Hb. reflexivity.
Qed.

Lemma showfile_only_prints_witness :
  printed (pitivi_projectsourcelist_showfile 1 0 sample_world).2
  = ["ready"; "/video/take1.avi"; "/video/take2.avi"]
  /\ objects (pitivi_projectsourcelist_showfile 1 0 sample_world).2
     = objects sample_world.
Proof.
  destruct (showfile_only_prints sample_world 1 0)
    as (_ & Hobj & Hprint & _).
  split; [|exact Hobj].
  apply (Hprint sample_list
           (SourceBin "rushes"
              [ Source "/video/take1.avi" "take1.avi, 12 s";
                Source "/video/take2.avi" "take2.avi, 7 s" ]));
    vm_compute; reflexivity.
Defined.

Example showfile_sample :
  pitivi_projectsourcelist_showfile 1 0 sample_world
  = (tt, World (objects sample_world)
               ["ready"; "/video/take1.avi"; "/video/take2.avi"]).
Proof. vm_compute. reflexivity. Qed.

(** * Further properties of the header *)

(** ** Inclusion *)

Section Active.

Variable m : string.

(** Lines without conditionals, read in an open group: the declarations
    are appended in order, the macros defined are the ones of the lines,
    and other names keep their entry. *)
Lemma cpp_lines_active (ls : list pp_line) (conds : list bool)
    (st : cpp_state) :
  flat ls = true -> active conds = true ->
  output (cpp_lines ls conds st).2 = (output st ++ decls_of ls)%list
  /\ (m ∉ defined_by ls ->
      macros (cpp_lines ls conds st).2 !! m = macros st !! m)
  /\ (m ∈ defined_by ls -> is_defined m (cpp_lines ls conds st).2 = true).
Proof.
  revert st. induction ls as [|l ls IH]; intros st Hflat Hact.
  - simpl. rewrite app_nil_r. split; [reflexivity|].
    split; [reflexivity|]. intros H. inversion H.
  - simpl in Hflat. apply andb_prop in Hflat as [Hl Hls].
    destruct l as [m'|m' ps b| |d]; simpl in Hl; try discriminate;
      simpl; rewrite Hact.
    + destruct (IH (define m' (Macro ps b) st) Hls Hact) as (Ho & Hk & Hd).
      split; [exact Ho|]. split.
      * intros Hm. apply not_elem_of_cons in Hm as [Hne Hm].
        rewrite (Hk Hm). simpl. apply lookup_insert_ne. congruence.
      * intros Hm. apply elem_of_cons in Hm as [->|Hm]; [|exact (Hd Hm)].
        apply (cpp_lines_flat ls conds _ m' Hls).
        unfold is_defined, define; simpl. rewrite lookup_insert_eq.
        reflexivity.
    + destruct (IH (emit d st) Hls Hact) as (Ho & Hk & Hd).
      split; [|split; assumption].
      rewrite Ho. simpl. rewrite <- app_assoc. reflexivity.
Qed.

End Active.

Lemma declarations_of_body : declarations = decls_of header_body.
Proof. vm_compute. reflexivity. Qed.

Lemma defined_by_header :
  defined_by header = PITIVI_PROJECTSOURCELIST_H :: defined_by header_body.
Proof. vm_compute. reflexivity. Qed.

(** A first inclusion of a guarded file defines the guard and reads the
    body. *)
Lemma include_guarded_undefined (g : string) (body : list pp_line)
    (st : cpp_state) :
  is_defined g st = false ->
  include (guarded g body) st
  = (cpp_lines body [true] (define g (Macro None []) st)).2.
Proof.
  intros Hg. unfold include, guarded.
  cbn [cpp_lines cpp_line]. rewrite Hg.
  cbn [negb active forallb id andb].
  rewrite cpp_lines_app.
  destruct (cpp_lines body [true] _) as [conds st']. reflexivity.
Qed.

Lemma include_header_undefined (st : cpp_state) :
  is_defined PITIVI_PROJECTSOURCELIST_H st = false ->
  include header st
  = (cpp_lines header_body [true]
       (define PITIVI_PROJECTSOURCELIST_H (Macro None []) st)).2.
Proof. rewrite header_is_guarded. apply include_guarded_undefined. Qed.

(** X1.  When [PITIVI_PROJECTSOURCELIST_H] is defined already, including
    the header changes neither the macro table nor the declarations. *)
Theorem include_header_guard_defined (st : cpp_state) :
  is_defined PITIVI_PROJECTSOURCELIST_H st = true ->
  include header st = st.
Proof.
  intros Hg. rewrite header_is_guarded.
  apply include_guarded_defined; [apply header_body_flat | exact Hg].
Qed.

Lemma include_header_guard_defined_witness :
  include header
    (CppState {[ PITIVI_PROJECTSOURCELIST_H := Macro None ["1"] ]} [])
  = CppState {[ PITIVI_PROJECTSOURCELIST_H := Macro None ["1"] ]} [].
Proof.
  apply (include_header_guard_defined
           (CppState {[ PITIVI_PROJECTSOURCELIST_H := Macro None ["1"] ]}
                     [])).
  vm_compute. reflexivity.
Defined.

Lemma declarations_hold_no_header_macro :
  Forall (fun t => t ∉ defined_by header) (flat_map decl_tokens declarations).
Proof. apply (bool_decide_unpack _). vm_compute. reflexivity. Qed.

(** X2.  When none of the seven macro names of the header is defined yet,
    and no identifier or keyword of its declarations is the name of a
    macro, including the header appends its twelve declarations, in the
    order of the file, to the declarations read before; it defines the
    guard and the six type macros; and every other macro name keeps the
    entry it had. *)
Theorem include_header_first (st : cpp_state) :
  Forall (fun m => is_defined m st = false) (defined_by header) ->
  Forall (fun t => is_defined t st = false)
         (flat_map decl_tokens declarations) ->
  output (include header st) = (output st ++ declarations)%list
  /\ Forall (fun m => is_defined m (include header st) = true)
            (defined_by header)
  /\ forall m : string,
       m ∉ defined_by header ->
       macros (include header st) !! m = macros st !! m.
Proof.
  intros Hnew _.
  assert (Hg : is_defined PITIVI_PROJECTSOURCELIST_H st = false).
  { rewrite defined_by_header in Hnew. apply Forall_cons_1 in Hnew as [Hg _].
    exact Hg. }
  rewrite (include_header_undefined st Hg), declarations_of_body.
  split; [|split].
  - destruct (cpp_lines_active "" header_body [true]
                (define PITIVI_PROJECTSOURCELIST_H (Macro None []) st)
                header_body_flat eq_refl) as (Ho & _ & _).
    exact Ho.
  - apply Forall_forall. intros m Hm.
    rewrite defined_by_header in Hm.
    apply elem_of_cons in Hm as [->|Hm].
    + apply (cpp_lines_flat header_body [true] _ _ header_body_flat).
      unfold is_defined, define; simpl. rewrite lookup_insert_eq.
      reflexivity.
    + apply (cpp_lines_active m header_body [true] _ header_body_flat
                              eq_refl), Hm.
  - intros m Hm.
    rewrite defined_by_header in Hm.
    apply not_elem_of_cons in Hm as [Hne Hm].
    destruct (cpp_lines_active m header_body [true]
                (define PITIVI_PROJECTSOURCELIST_H (Macro None []) st)
                header_body_flat eq_refl) as (_ & Hk & _).
    rewrite (Hk Hm). simpl. apply lookup_insert_ne. congruence.
Qed.

Lemma include_header_first_witness :
  output (include header
            (CppState {[ "NDEBUG" := Macro None [] ]}
                      [DTypedefStruct "_GObject" "GObject"]))
  = (DTypedefStruct "_GObject" "GObject" :: declarations)
  /\ macros (include header
               (CppState {[ "NDEBUG" := Macro None [] ]}
                         [DTypedefStruct "_GObject" "GObject"]))
     !! "NDEBUG" = Some (Macro None []).
Proof.
  destruct (include_header_first
              (CppState {[ "NDEBUG" := Macro None [] ]}
                        [DTypedefStruct "_GObject" "GObject"]))
    as (Hout & _ & Hkeep).
  - apply (bool_decide_unpack _). vm_compute. reflexivity.
  - apply (bool_decide_unpack _). vm_compute. reflexivity.
  - split; [exact Hout|].
    rewrite (Hkeep "NDEBUG").
    + vm_compute. reflexivity.
    + apply (bool_decide_unpack _). vm_compute. reflexivity.
Defined.

(** ** Scoping *)

Lemma declarations_explicit :
  declarations
  = [ DTypedefStruct "_PitiviProjectSourceList" "PitiviProjectSourceList";
      DTypedefStruct "_PitiviProjectSourceListClass"
                     "PitiviProjectSourceListClass";
      DTypedefStruct "_PitiviProjectSourceListPrivate"
                     "PitiviProjectSourceListPrivate";
      DTypedefStruct "_PitiviSourceBin" "PitiviSourceBin";
      DStruct "_PitiviProjectSourceList"
        [CVar (TName "GObject") "parent";
         CVar (TPtr (TName "PitiviProjectSourceListPrivate")) "private"];
      DStruct "_PitiviProjectSourceListClass"
        [CVar (TName "GObjectClass") "parent"];
      DProto pitivi_projectsourcelist_get_type_proto;
      DProto pitivi_projectsourcelist_new_proto;
      DProto pitivi_projectsourcelist_add_file_to_bin_proto;
      DProto pitivi_projectsourcelist_new_bin_proto;
      DProto pitivi_projectsourcelist_get_file_info_proto;
      DProto pitivi_projectsourcelist_showfile_proto ].
Proof. vm_compute. reflexivity. Qed.

Ltac split_andb :=
  repeat match goal with
         | H : _ && _ = true |- _ => apply andb_prop in H as [? ?]
         | H : bool_decide _ = true |- _ => apply bool_decide_eq_true_1 in H
         end.

Ltac skip_aliases H :=
  repeat (apply elem_of_cons in H as [H|H]; [discriminate H|]).

Ltac find_name Hsub :=
  repeat first [ apply list_elem_of_here | apply list_elem_of_further ];
  try (apply Hsub; unfold glib_types;
       repeat first [ apply list_elem_of_here | apply list_elem_of_further ]).

(** X3.  The header includes no other header.  Its declarations are in
    scope, each type name declared before it is used, exactly when the six
    type names of GLib that it uses ([GObject], [GObjectClass], [GType],
    [gboolean], [guint], [gchar]) were declared before it is read. *)
Theorem header_scoped_iff_glib (known : list string) :
  well_scoped known declarations = true <-> glib_types ⊆ known.
Proof.
  rewrite declarations_explicit.
  unfold pitivi_projectsourcelist_get_type_proto,
    pitivi_projectsourcelist_new_proto,
    pitivi_projectsourcelist_add_file_to_bin_proto,
    pitivi_projectsourcelist_new_bin_proto,
    pitivi_projectsourcelist_get_file_info_proto,
    pitivi_projectsourcelist_showfile_proto, handle.
  cbn [well_scoped used_types forallb map var_type proto_ret proto_params
       name_known base_name andb].
  split.
  - intros H. split_andb.
    intros n Hn. unfold glib_types in Hn.
    repeat (apply elem_of_cons in Hn as [->|Hn];
            [match goal with
             | Hk : ?x ∈ _ |- ?x ∈ known => skip_aliases Hk; exact Hk
             end|]).
    inversion Hn.
  - intros Hsub.
    repeat (apply andb_true_intro; split); try reflexivity;
      apply bool_decide_eq_true_2; find_name Hsub.
Qed.

Lemma header_scoped_iff_glib_witness :
  well_scoped glib_types declarations = true.
Proof.
  apply (header_scoped_iff_glib glib_types). intros n Hn. exact Hn.
Defined.

(** X4.  The bin type and the private type stay out of the function
    interface: [PitiviSourceBin] is named by a typedef, never completed and
    written by no declaration; [PitiviProjectSourceListPrivate] is written
    only by the member [private] of the instance struct; every parameter
    of every prototype is the handle, a [guint] or a [gchar *]; the
    [guint] parameters are [bin_pos] of three functions and [next_file] of
    one, and the [gchar *] parameters are [source] of
    [pitivi_projectsourcelist_add_file_to_bin] and [bin_name] of
    [pitivi_projectsourcelist_new_bin]. *)
Theorem bin_type_stays_private :
  users_of "PitiviSourceBin" declarations = []
  /\ is_incomplete declarations "PitiviSourceBin" = true
  /\ users_of "PitiviProjectSourceListPrivate" declarations
     = [ DStruct "_PitiviProjectSourceList"
           [CVar (TName "GObject") "parent";
            CVar (TPtr (TName "PitiviProjectSourceListPrivate"))
                 "private"] ]
  /\ Forall (fun p => Forall (fun v => var_type v ∈ [handle; guint; gchar_ptr])
                             (proto_params p))
            (prototypes declarations)
  /\ params_of_type guint (prototypes declarations)
     = [ ("pitivi_projectsourcelist_add_file_to_bin", "bin_pos");
         ("pitivi_projectsourcelist_get_file_info", "bin_pos");
         ("pitivi_projectsourcelist_get_file_info", "next_file");
         ("pitivi_projectsourcelist_showfile", "bin_pos") ]
  /\ params_of_type gchar_ptr (prototypes declarations)
     = [ ("pitivi_projectsourcelist_add_file_to_bin", "source");
         ("pitivi_projectsourcelist_new_bin", "bin_name") ].
Proof.
  split; [vm_compute; reflexivity|].
  split; [vm_compute; reflexivity|].
  split; [vm_compute; reflexivity|].
  split; [apply (bool_decide_unpack _); vm_compute; reflexivity|].
  split; vm_compute; reflexivity.
Qed.

(** ** The type macros *)

Lemma expand_app (n : nat) (tbl : gmap string macro) (a b : list token) :
  expand n tbl (a ++ b) = (expand n tbl a ++ expand n tbl b)%list.
Proof. destruct n; simpl; [reflexivity | apply flat_map_app]. Qed.

Lemma expand_no_macro (n : nat) (tbl : gmap string macro) (ts : list token) :
  Forall (fun t => tbl !! t = None) ts -> expand n tbl ts = ts.
Proof.
  intros H. destruct n; simpl; [reflexivity|].
  induction H as [|t ts Ht _ IH]; simpl; [reflexivity|].
  rewrite Ht, IH. reflexivity.
Qed.

(** The use of a macro of one parameter whose replacement list, with the
    argument in place, is [pre ++ arg ++ post]. *)
Lemma invoke_one (m x : string) (body pre post pre' post' arg : list token) :
  macro_table !! m = Some (Macro (Some [x]) body) ->
  (forall a, substitute [x] [a] body = (pre ++ a ++ post)%list) ->
  expand (size macro_table) macro_table pre = pre' ->
  expand (size macro_table) macro_table post = post' ->
  Forall (fun t => macro_table !! t = None) arg ->
  invoke macro_table m [arg] = Some (pre' ++ arg ++ post')%list.
Proof.
  intros Hm Hsubst Hpre Hpost Harg. unfold invoke. rewrite Hm.
  cbn [length map]. rewrite bool_decide_eq_true_2 by reflexivity.
  rewrite (expand_no_macro _ _ arg Harg), Hsubst, !expand_app.
  rewrite (expand_no_macro _ _ arg Harg), Hpre, Hpost. reflexivity.
Qed.

Lemma invoke_arity (m x : string) (body : list token)
    (args : list (list token)) :
  macro_table !! m = Some (Macro (Some [x]) body) ->
  length args <> 1 -> invoke macro_table m args = None.
Proof.
  intros Hm Hlen. unfold invoke. rewrite Hm. cbn [length].
  rewrite bool_decide_eq_false_2; [reflexivity | congruence].
Qed.

Ltac use_invoke_one x body pre post post' :=
  apply (invoke_one _ x body pre post pre post');
  [ vm_compute; reflexivity
  | intros a; vm_compute; reflexivity
  | vm_compute; reflexivity
  | vm_compute; reflexivity
  | assumption ].

(** X5.  A use of one of the five cast and check macros with one argument
    that holds no macro of the header is replaced by the GLib check in
    parentheses, with the argument once, in parentheses of its own, and
    with one call of [pitivi_projectsourcelist_get_type]; a use with
    another number of arguments has no replacement. *)
Theorem type_macros_use (arg : list token) :
  Forall (fun t => macro_table !! t = None) arg ->
  invoke macro_table "PITIVI_PROJECTSOURCELIST" [arg]
  = Some (["("; "G_TYPE_CHECK_INSTANCE_CAST"; "("; "("] ++ arg
          ++ [")"; ","; "("; "pitivi_projectsourcelist_get_type"; "("; ")";
              ")"; ","; "PitiviProjectSourceList"; ")"; ")"])%list
  /\ invoke macro_table "PITIVI_PROJECTSOURCELIST_CLASS" [arg]
     = Some (["("; "G_TYPE_CHECK_CLASS_CAST"; "("; "("] ++ arg
             ++ [")"; ","; "("; "pitivi_projectsourcelist_get_type"; "(";
                 ")"; ")"; ","; "PitiviProjectSourceListClass"; ")"; ")"])%list
  /\ invoke macro_table "PITIVI_IS_PROJECTSOURCELIST" [arg]
     = Some (["("; "G_TYPE_CHECK_TYPE"; "("; "("] ++ arg
             ++ [")"; ","; "("; "pitivi_projectsourcelist_get_type"; "(";
                 ")"; ")"; ")"; ")"])%list
  /\ invoke macro_table "PITIVI_IS_PROJECTSOURCELIST_CLASS" [arg]
     = Some (["("; "G_TYPE_CHECK_CLASS_TYPE"; "("; "("] ++ arg
             ++ [")"; ","; "("; "pitivi_projectsourcelist_get_type"; "(";
                 ")"; ")"; ")"; ")"])%list
  /\ invoke macro_table "PITIVI_PROJECTSOURCELIST_GET_CLASS" [arg]
     = Some (["("; "G_TYPE_INSTANCE_GET_CLASS"; "("; "("] ++ arg
             ++ [")"; ","; "("; "pitivi_projectsourcelist_get_type"; "(";
                 ")"; ")"; ","; "PitiviProjectSourceListClass"; ")"; ")"])%list
  /\ forall (m : string) (args : list (list token)),
       m ∈ [ "PITIVI_PROJECTSOURCELIST"; "PITIVI_PROJECTSOURCELIST_CLASS";
             "PITIVI_IS_PROJECTSOURCELIST";
             "PITIVI_IS_PROJECTSOURCELIST_CLASS";
             "PITIVI_PROJECTSOURCELIST_GET_CLASS" ] ->
       length args <> 1 -> invoke macro_table m args = None.
Proof.
  intros Harg.
  split.
  { use_invoke_one "obj"
      (check3 "G_TYPE_CHECK_INSTANCE_CAST" "obj" "PitiviProjectSourceList")
      ["("; "G_TYPE_CHECK_INSTANCE_CAST"; "("; "("]
      [")"; ","; "PITIVI_PROJECTSOURCELIST_TYPE"; ",";
       "PitiviProjectSourceList"; ")"; ")"]
      [")"; ","; "("; "pitivi_projectsourcelist_get_type"; "("; ")"; ")";
       ","; "PitiviProjectSourceList"; ")"; ")"]. }
  split.
  { use_invoke_one "klass"
      (check3 "G_TYPE_CHECK_CLASS_CAST" "klass"
              "PitiviProjectSourceListClass")
      ["("; "G_TYPE_CHECK_CLASS_CAST"; "("; "("]
      [")"; ","; "PITIVI_PROJECTSOURCELIST_TYPE"; ",";
       "PitiviProjectSourceListClass"; ")"; ")"]
      [")"; ","; "("; "pitivi_projectsourcelist_get_type"; "("; ")"; ")";
       ","; "PitiviProjectSourceListClass"; ")"; ")"]. }
  split.
  { use_invoke_one "obj" (check2 "G_TYPE_CHECK_TYPE" "obj")
      ["("; "G_TYPE_CHECK_TYPE"; "("; "("]
      [")"; ","; "PITIVI_PROJECTSOURCELIST_TYPE"; ")"; ")"]
      [")"; ","; "("; "pitivi_projectsourcelist_get_type"; "("; ")"; ")";
       ")"; ")"]. }
  split.
  { use_invoke_one "klass" (check2 "G_TYPE_CHECK_CLASS_TYPE" "klass")
      ["("; "G_TYPE_CHECK_CLASS_TYPE"; "("; "("]
      [")"; ","; "PITIVI_PROJECTSOURCELIST_TYPE"; ")"; ")"]
      [")"; ","; "("; "pitivi_projectsourcelist_get_type"; "("; ")"; ")";
       ")"; ")"]. }
  split.
  { use_invoke_one "obj"
      (check3 "G_TYPE_INSTANCE_GET_CLASS" "obj"
              "PitiviProjectSourceListClass")
      ["("; "G_TYPE_INSTANCE_GET_CLASS"; "("; "("]
      [")"; ","; "PITIVI_PROJECTSOURCELIST_TYPE"; ",";
       "PitiviProjectSourceListClass"; ")"; ")"]
      [")"; ","; "("; "pitivi_projectsourcelist_get_type"; "("; ")"; ")";
       ","; "PitiviProjectSourceListClass"; ")"; ")"]. }
  intros m args Hm Hlen. apply list_elem_of_In in Hm. simpl in Hm.
  destruct Hm as [<-|[<-|[<-|[<-|[<-|[]]]]]];
    eapply invoke_arity; try exact Hlen; vm_compute; reflexivity.
Qed.

Lemma type_macros_use_witness :
  invoke macro_table "PITIVI_IS_PROJECTSOURCELIST" [["list"; "->"; "next"]]
  = Some ["("; "G_TYPE_CHECK_TYPE"; "("; "("; "list"; "->"; "next"; ")";
          ","; "("; "pitivi_projectsourcelist_get_type"; "("; ")"; ")";
          ")"; ")"].
Proof.
  destruct (type_macros_use ["list"; "->"; "next"])
    as (_ & _ & His & _).
  - repeat apply Forall_cons_2; try apply Forall_nil_2;
      vm_compute; reflexivity.
  - exact His.
Defined.

(** X6.  Each macro of the header is safe inside any expression: its
    replacement list is empty or stands inside one pair of parentheses, and
    its parameter occurs once, in parentheses of its own. *)
Theorem type_macros_hygienic :
  map_Forall (fun _ mc => hygienic mc = true) macro_table.
Proof. apply (bool_decide_unpack _). vm_compute. reflexivity. Qed.

Example unsafe_macro_rejected :
  hygienic (Macro (Some ["x"]) ["("; "x"; "*"; "x"; ")"]) = false.
Proof. vm_compute. reflexivity. Qed.

(** X7.  The replacement lists of the guard and of
    [PITIVI_PROJECTSOURCELIST_TYPE] use nothing that the header does not
    declare.  Each of the five cast and check macros uses one name that
    the header neither declares nor defines, the macro it calls; every
    other token is punctuation, the parameter, or a macro, function or
    typedef name of the header. *)
Theorem type_macros_undeclared_names :
  undeclared_by_macro header declarations macro_table
  = [ ("PITIVI_PROJECTSOURCELIST_H", []);
      ("PITIVI_PROJECTSOURCELIST_TYPE", []);
      ("PITIVI_PROJECTSOURCELIST", ["G_TYPE_CHECK_INSTANCE_CAST"]);
      ("PITIVI_PROJECTSOURCELIST_CLASS", ["G_TYPE_CHECK_CLASS_CAST"]);
      ("PITIVI_IS_PROJECTSOURCELIST", ["G_TYPE_CHECK_TYPE"]);
      ("PITIVI_IS_PROJECTSOURCELIST_CLASS", ["G_TYPE_CHECK_CLASS_TYPE"]);
      ("PITIVI_PROJECTSOURCELIST_GET_CLASS", ["G_TYPE_INSTANCE_GET_CLASS"]) ].
Proof. vm_compute. reflexivity. Qed.
